(** * doc/source/conf.py: the Sphinx configuration of aali-flowkit

    The configuration file is a Python module that Sphinx executes once, top
    to bottom.  Every statement binds a module-level name; three of them look
    at the outside world (the clock, the VERSION file, the process
    environment) and one calls a helper of the theme package.

    The module is embedded as a computation in a small state-and-exception
    monad: the state is the module namespace (name to value), an exception
    stops the execution and leaves the namespace as it was when raised.

    The namespace of the embedding holds the names bound by the assignment
    statements and by the [with] statement, and only those.  The module
    docstring ([__doc__]) and the names bound by the [import] lines
    ([datetime], [os] and the three names of the theme package) are bound
    before the first assignment, whatever the inputs; they are not part of
    the embedded namespace, and no statement below speaks of them.  The
    theme package is taken as imported. *)

From stdpp Require Import base option strings gmap pretty.
From Stdlib Require Import ZArith Ascii String.

#[local] Set Warnings "-register-all".
Local Open Scope string_scope.
Local Open Scope Z_scope.

(** ** Python values and text *)

Module Py.

(** The values that the configuration binds.  A dict literal keeps its items
    in source order; [VFile] is the file object left bound by a [with]
    statement. *)
Inductive pyval : Type :=
  | VStr (s : string)
  | VInt (z : Z)
  | VBool (b : bool)
  | VList (items : list pyval)
  | VTuple (items : list pyval)
  | VDict (items : list (string * pyval))
  | VFile (name : string).

(** [d[k]] on a dict value; anything else has no items. *)
Fixpoint assoc (k : string) (items : list (string * pyval)) : option pyval :=
  match items with
  | [] => None
  | (k', v) :: rest => if String.eqb k k' then Some v else assoc k rest
  end.

Definition dict_get (k : string) (v : pyval) : option pyval :=
  match v with
  | VDict items => assoc k items
  | _ => None
  end.

Inductive exn : Type :=
  | FileNotFoundError (filename : string)
  | IsADirectoryError (filename : string)
  | PermissionError (filename : string)
  | UnicodeDecodeError (reason : string)
  | ValueError (msg : string)
  | PyException (cls msg : string).

Inductive result (A : Type) : Type :=
  | Ok (a : A)
  | Raise (e : exn).
Global Arguments Ok {A} a.
Global Arguments Raise {A} e.

(** A character is a code point below 256.  [str.isspace] on that range:
    TAB, LF, VT, FF, CR, the separators FS GS RS US, the space, NEL and the
    no-break space. *)
Definition isspace (c : ascii) : bool :=
  let n := N_of_ascii c in
  ((9 <=? n) && (n <=? 13) || (28 <=? n) && (n <=? 32)
   || (n =? 133) || (n =? 160))%N.

Fixpoint lstrip (s : string) : string :=
  match s with
  | EmptyString => EmptyString
  | String c s' => if isspace c then lstrip s' else s
  end.

Fixpoint rstrip (s : string) : string :=
  match s with
  | EmptyString => EmptyString
  | String c s' =>
      match rstrip s' with
      | EmptyString => if isspace c then EmptyString else String c EmptyString
      | r => String c r
      end
  end.

(** [str.strip()] without argument. *)
Definition strip (s : string) : string := rstrip (lstrip s).

Definition LF : ascii := ascii_of_N 10.
Definition CR : ascii := ascii_of_N 13.

(** A line terminator of a text file opened with the default
    [newline=None]. *)
Definition is_eol (c : ascii) : bool := Ascii.eqb c LF || Ascii.eqb c CR.

(** [f.readline()] on a freshly opened text file whose decoded content is
    [text]: everything up to the first line terminator, which is handed over
    as a single LF; the whole text when there is none. *)
Fixpoint readline (text : string) : string :=
  match text with
  | EmptyString => EmptyString
  | String c rest =>
      if is_eol c then String LF EmptyString else String c (readline rest)
  end.

(** [line] holds no line terminator. *)
Fixpoint no_eol (line : string) : bool :=
  match line with
  | EmptyString => true
  | String c rest => negb (is_eol c) && no_eol rest
  end.

(** What may follow the first line of a text: nothing, or a line terminator
    and then anything. *)
Definition later_lines (rest : string) : bool :=
  match rest with
  | EmptyString => true
  | String c _ => is_eol c
  end.

(** [str.endswith("/")] and [str.startswith("/")]. *)
Fixpoint endswith_sep (s : string) : bool :=
  match s with
  | EmptyString => false
  | String c EmptyString => Ascii.eqb c "/"
  | String _ s' => endswith_sep s'
  end.

Definition startswith_sep (s : string) : bool :=
  match s with
  | String c _ => Ascii.eqb c "/"
  | EmptyString => false
  end.

(** One turn of the loop of [posixpath.join]. *)
Definition join_step (path b : string) : string :=
  if startswith_sep b then b
  else if String.eqb path "" || endswith_sep path then path +:+ b
  else path +:+ "/" +:+ b.

Definition os_path_join (a : string) (p : list string) : string :=
  foldl join_step a p.

(** [str(n)] for an [int]. *)
Definition str_int (n : Z) : string := pretty n.

End Py.
Export Py.

(** ** The outside world *)

(** What [open(path, "r")] and a first read find at a path that is there:
    a file that opens and decodes to [text]; something that [open] refuses
    with [e] (a directory, a file without read permission, ...); a file that
    opens and whose read raises [e] (bytes that the decoder rejects).  The
    text is the file as decoded in the encoding that [open] picks for the
    process, which follows its locale: the embedding does not derive it from
    [environ]. *)
Inductive file_state : Type :=
  | Text (text : string)
  | OpenRaises (e : exn)
  | ReadRaises (e : exn).

(** What the module can observe: the files reachable from the working
    directory (a path that is not there is a missing file), the process
    environment and the year of the local clock. *)
Record World : Type := {
  files : gmap string file_state;
  environ : gmap string string;
  now_year : Z;
}.

(** An open text file: its name and what reading it gives. *)
Record TextIO : Type := {
  io_name : string;
  io_read : result string;
}.

(** The three names imported from [ansys_sphinx_theme].  The package is not
    part of this repository: the two constants are some values, the helper is
    some function of a string that returns a value or raises. *)
Record AnsysSphinxTheme : Type := {
  ansys_logo_black : pyval;
  ansys_favicon : pyval;
  get_version_match : string -> result pyval;
}.

(** ** Executing module-level statements *)

Definition Exec (A : Type) : Type :=
  gmap string pyval -> gmap string pyval * result A.

Global Instance Exec_ret : MRet Exec := λ A a ns, (ns, Ok a).
Global Instance Exec_bind : MBind Exec := λ A B k m ns,
  match m ns with
  | (ns', Ok a) => k a ns'
  | (ns', Raise e) => (ns', Raise e)
  end.

(** [name = v] at module level. *)
Definition assign (name : string) (v : pyval) : Exec unit :=
  λ ns, (<[name := v]> ns, Ok tt).

(** A call that returns or raises and does not touch the namespace. *)
Definition call {A : Type} (r : result A) : Exec A := λ ns, (ns, r).

Section Conf.
Context (theme : AnsysSphinxTheme) (w : World).

(** [datetime.now().year] *)
Definition datetime_now_year : Exec Z := call (Ok (now_year w)).

(** [open(path, "r")]: the file object, or the exception of [open],
    [FileNotFoundError] for a missing file. *)
Definition open_r (path : string) : Exec TextIO :=
  call (match files w !! path with
        | Some (Text text) => Ok {| io_name := path; io_read := Ok text |}
        | Some (ReadRaises e) => Ok {| io_name := path; io_read := Raise e |}
        | Some (OpenRaises e) => Raise e
        | None => Raise (FileNotFoundError path)
        end).

(** [f.readline()] on the file just opened. *)
Definition f_readline (f : TextIO) : Exec string :=
  call (match io_read f with
        | Ok text => Ok (readline text)
        | Raise e => Raise e
        end).

(** [os.getenv(key, fallback)] *)
Definition os_getenv (key fallback : string) : string :=
  default fallback (environ w !! key).

(** [os.path.join("..", "..", "VERSION")] *)
Definition VERSION_path : string := os_path_join ".." [".."; "VERSION"].

(** The module body, statement by statement.  A name that is read again
    further down is also kept as a local of the embedding. *)
Definition conf_py : Exec unit :=
  (* Project information *)
  let project := VStr "aali-flowkit" in
  assign "project" project;;
  year ← datetime_now_year;
  assign "copyright"
    (VStr ("(c) " +:+ str_int year +:+ " ANSYS, Inc. All rights reserved"));;
  assign "author" (VStr "ANSYS, Inc.");;
  (* Read version from VERSION file *)
  f ← open_r VERSION_path;
  assign "f" (VFile (io_name f));;
  line ← f_readline f;
  let version_file := strip line in
  assign "version_file" (VStr version_file);;
  assign "release" (VStr version_file);;
  assign "version" (VStr version_file);;
  switcher_version ← call (get_version_match theme version_file);
  assign "switcher_version" switcher_version;;
  let cname :=
    os_getenv "DOCUMENTATION_CNAME" "laughing-guide-5m1lvq6.pages.github.io" in
  assign "cname" (VStr cname);;
  (* Select desired logo, theme, and declare the html title *)
  assign "html_theme" (VStr "ansys_sphinx_theme");;
  assign "html_short_title" project;;
  assign "html_title" project;;
  assign "html_logo" (ansys_logo_black theme);;
  assign "html_favicon" (ansys_favicon theme);;
  assign "html_context" (VDict [
    ("github_user", VStr "ansys");
    ("github_repo", VStr "aali-flowkit");
    ("github_version", VStr "main");
    ("doc_path", VStr "doc/source")
  ]);;
  assign "html_theme_options" (VDict [
    ("github_url", VStr "https://github.com/ansys/aali-flowkit");
    ("additional_breadcrumbs", VList [
       VTuple [VStr "Aali"; VStr "https://aali.docs.ansys.com/"]
    ]);
    ("switcher", VDict [
       ("json_url", VStr ("https://" +:+ cname +:+ "/versions.json"));
       ("version_match", switcher_version)
    ]);
    ("check_switcher", VBool false);
    ("show_prev_next", VBool false);
    ("show_breadcrumbs", VBool true);
    ("use_edit_page_button", VBool true)
  ]);;
  (* Sphinx extensions *)
  assign "extensions" (VList [
    VStr "sphinx_design";
    VStr "sphinx_copybutton";
    VStr "myst_parser"
  ]);;
  assign "templates_path" (VList [VStr "_templates"]);;
  assign "source_suffix" (VStr ".rst");;
  assign "master_doc" (VStr "index");;
  assign "source_suffix" (VDict [
    (".rst", VStr "restructuredtext");
    (".md", VStr "markdown")
  ]);;
  assign "master_doc" (VStr "index");;
  (* MyST parser configuration *)
  assign "myst_enable_extensions" (VList [
    VStr "replacements";
    VStr "smartquotes"
  ]);;
  assign "myst_heading_anchors" (VInt 3);;
  assign "suppress_warnings" (VList [VStr "myst.xref_missing"]).

End Conf.

(** Sphinx executes the module in a fresh namespace. *)
Definition run (theme : AnsysSphinxTheme) (w : World)
  : gmap string pyval * result unit :=
  conf_py theme w ∅.

(** ** Reading the result *)

(** [html_theme_options[k]] and [html_theme_options["switcher"][k]] in a
    namespace. *)
Definition theme_option (k : string) (ns : gmap string pyval)
  : option pyval :=
  opts ← ns !! "html_theme_options"; dict_get k opts.

Definition switcher_entry (k : string) (ns : gmap string pyval)
  : option pyval :=
  switcher ← theme_option "switcher" ns; dict_get k switcher.

(** ** Sample inputs *)

Module Sample.

(** [s.split(sep)] for a one-character separator. *)
Fixpoint split_on (sep : ascii) (s : string) : list string :=
  match s with
  | EmptyString => [EmptyString]
  | String c rest =>
      if Ascii.eqb c sep then EmptyString :: split_on sep rest
      else match split_on sep rest with
           | [] => [String c EmptyString]
           | first :: others => String c first :: others
           end
  end.

(** A helper of the kind the theme package provides: ["dev"] for a
    development version, otherwise [major.minor]; unpacking fewer than two
    dot-separated components raises [ValueError]. *)
Definition major_minor (semver : string) : result pyval :=
  match String.index 0 "dev" semver with
  | Some _ => Ok (VStr "dev")
  | None =>
      match split_on "." semver with
      | major :: minor :: _ => Ok (VStr (major +:+ "." +:+ minor))
      | _ => Raise (ValueError
               "not enough values to unpack (expected at least 2, got 1)")
      end
  end.

Definition theme : AnsysSphinxTheme := {|
  ansys_logo_black := VStr "static/logos/ansys_logo_black_cropped.jpg";
  ansys_favicon := VStr "static/logos/ansys-favicon.png";
  get_version_match := major_minor;
|}.

(** A world with a VERSION file of content [text] (none for [None]), the
    hostname variable set to [cname] (unset for [None]) and the clock in
    [year]. *)
Definition world (text cname : option string) (year : Z) : World := {|
  files := from_option (λ t, {[ VERSION_path := Text t ]}) ∅ text;
  environ := from_option (λ v, {[ "DOCUMENTATION_CNAME" := v ]}) ∅ cname;
  now_year := year;
|}.

(** A world where the VERSION path is there in state [st], with the hostname
    variable unset. *)
Definition world_at (st : file_state) (year : Z) : World := {|
  files := {[ VERSION_path := st ]};
  environ := ∅;
  now_year := year;
|}.

(** A release file of two lines. *)
Definition release_text : string :=
  "  1.4.2 " +:+ String LF "built from main".

End Sample.

(** The same world with another process environment. *)
Definition with_environ (env : gmap string string) (w : World) : World :=
  {| files := files w; environ := env; now_year := now_year w |}.

(** The names that the module binds, in the order of their first
    assignment. *)
Definition bound_names : list string :=
  ["project"; "copyright"; "author"; "f"; "version_file"; "release";
   "version"; "switcher_version"; "cname"; "html_theme";
   "html_short_title"; "html_title"; "html_logo"; "html_favicon";
   "html_context"; "html_theme_options"; "extensions"; "templates_path";
   "source_suffix"; "master_doc"; "myst_enable_extensions";
   "myst_heading_anchors"; "suppress_warnings"].

(** The names whose value is computed from the version file, the
    environment or the clock. *)
Definition input_derived : list string :=
  ["copyright"; "version_file"; "release"; "version"; "switcher_version";
   "cname"; "html_theme_options"].

(** The names bound above the call of the helper. *)
Definition bound_before_helper : list string :=
  ["project"; "copyright"; "author"; "f"; "version_file"; "release";
   "version"].

(** Every character of [s] is whitespace. *)
Fixpoint all_space (s : string) : bool :=
  match s with
  | EmptyString => true
  | String c rest => isspace c && all_space rest
  end.

(** [s] begins, respectively ends, with a whitespace character. *)
Definition starts_with_space (s : string) : bool :=
  match s with
  | EmptyString => false
  | String c _ => isspace c
  end.

Fixpoint ends_with_space (s : string) : bool :=
  match s with
  | EmptyString => false
  | String c EmptyString => isspace c
  | String _ rest => ends_with_space rest
  end.

(** ** Stepping through the module *)

(** Unfold the run down to the two places where it can stop. *)
Ltac exec_step :=
  unfold run, conf_py, open_r, f_readline, datetime_now_year, call, assign;
  unfold mbind, Exec_bind; cbv beta iota zeta.

(** Take the branch that [H] selects. *)
Ltac exec_with H := rewrite H; cbv beta iota delta [io_name io_read].

(** The run of a module whose VERSION file is readable ([Hf]) and whose
    helper call has the outcome recorded in [Ht]. *)
Ltac exec_conf Hf Ht :=
  exec_step; exec_with Hf; exec_with Ht; cbn [fst snd].

(** Every way a run can go: the state of the VERSION file and, when the
    file is read, the outcome of the helper. *)
Ltac exec_cases th w :=
  exec_step;
  destruct (files w !! VERSION_path) as [[?|?|?]|];
    cbv beta iota delta [io_name io_read];
    try match goal with
        | |- context [get_version_match th ?v] =>
            destruct (get_version_match th v)
        end;
    cbn [fst snd].

(** Forget how the year and the hostname of [w] are computed, so that
    evaluating a lookup leaves them alone. *)
Ltac abstract_text w :=
  generalize (str_int (now_year w));
  generalize (os_getenv w "DOCUMENTATION_CNAME"
                "laughing-guide-5m1lvq6.pages.github.io");
  intros.

(** Both sides look [k] up in a chain of assignments to the same names:
    go through the names; a [k] that is none of them is unbound on both
    sides. *)
Ltac lookup_by_name k names :=
  lazymatch names with
  | ?n :: ?rest =>
      destruct (decide (k = n)) as [->|?];
      [ first [exfalso; congruence | vm_compute; reflexivity]
      | lookup_by_name k rest ]
  | _ =>
      rewrite !lookup_insert_ne by fast_done;
      rewrite ?lookup_empty; reflexivity
  end.

Ltac lookup_chain k :=
  let names := eval unfold bound_names in bound_names in
  lookup_by_name k names.

(** ** Text lemmas *)

Section Text.
#[local] Arguments String.append !_ _ / : simpl nomatch.
#[local] Arguments is_eol : simpl never.
#[local] Arguments isspace : simpl never.
Implicit Types (s line rest : string) (c : ascii).

Lemma readline_no_eol line : no_eol line = true -> readline line = line.
Proof.
  induction line as [|c line IH]; cbn; [done|].
  intros [Hc Hl]%andb_prop. apply negb_true_iff in Hc. rewrite Hc.
  by rewrite IH.
Qed.

Lemma readline_app_eol line c rest :
  no_eol line = true -> is_eol c = true ->
  readline (line +:+ String c rest) = line +:+ String LF "".
Proof.
  intros Hl Hc. induction line as [|a line IH]; cbn.
  - by rewrite Hc.
  - cbn in Hl. apply andb_prop in Hl as [Ha Hl].
    apply negb_true_iff in Ha. rewrite Ha. by rewrite IH.
Qed.

Lemma rstrip_app_space s c :
  isspace c = true -> rstrip (s +:+ String c "") = rstrip s.
Proof.
  intros Hc. induction s as [|a s IH]; cbn.
  - by rewrite Hc.
  - by rewrite IH.
Qed.

Lemma strip_app_space s c :
  isspace c = true -> strip (s +:+ String c "") = strip s.
Proof.
  intros Hc. unfold strip. induction s as [|a s IH]; cbn.
  - by rewrite Hc.
  - destruct (isspace a); [done|].
    change (String a (s +:+ String c "")) with (String a s +:+ String c "").
    by apply rstrip_app_space.
Qed.

Lemma length_append s1 s2 :
  String.length (s1 +:+ s2) = (String.length s1 + String.length s2)%nat.
Proof. induction s1; cbn; congruence. Qed.

Lemma append_inj_l s1 s2 rest : s1 +:+ rest = s2 +:+ rest -> s1 = s2.
Proof.
  revert s2. induction s1 as [|a s1 IH]; intros [|b s2] Heq; cbn in Heq.
  - done.
  - apply (f_equal String.length) in Heq. cbn in Heq.
    rewrite length_append in Heq. lia.
  - apply (f_equal String.length) in Heq. cbn in Heq.
    rewrite length_append in Heq. lia.
  - injection Heq as -> Heq. f_equal. by apply IH.
Qed.

(** Only the first line of the text reaches [version_file]. *)
Lemma strip_readline_first_line line rest :
  no_eol line = true -> later_lines rest = true ->
  strip (readline (line +:+ rest)) = strip line.
Proof.
  intros Hl Hr. destruct rest as [|c rest]; cbn in Hr.
  - replace (line +:+ "") with line; [by rewrite readline_no_eol|].
    clear. induction line; cbn; congruence.
  - rewrite readline_app_eol by done. by apply strip_app_space.
Qed.

(** Every text splits into its first line and what follows. *)
Lemma first_line_exists s :
  exists line rest,
    s = line +:+ rest /\ no_eol line = true /\ later_lines rest = true.
Proof.
  induction s as [|c s (line & rest & -> & Hl & Hr)].
  - by exists "", "".
  - destruct (is_eol c) eqn:Hc.
    + exists "", (String c (line +:+ rest)). by cbn.
    + exists (String c line), rest. cbn. by rewrite Hc, Hl.
Qed.

End Text.

(** ** The version file *)

Lemma VERSION_path_eq : VERSION_path = "../../VERSION".
Proof. reflexivity. Qed.

(** No run binds a name outside [bound_names]. *)
Lemma unbound_outside_bound_names th w k :
  k ∉ bound_names -> (run th w).1 !! k = None.
Proof.
  unfold bound_names. rewrite !not_elem_of_cons. intros Hk. destruct_and!.
  exec_cases th w; rewrite !lookup_insert_ne by fast_done;
    apply lookup_empty.
Qed.

(** C1. When the VERSION file can be opened and its first line is [line]
    (whatever [rest] follows it), the module binds both [version] and
    [release] to [line] stripped of surrounding whitespace, whether or not
    a later statement raises. *)
Theorem version_release_from_first_line th w line rest :
  no_eol line = true ->
  later_lines rest = true ->
  files w !! VERSION_path = Some (Text (line +:+ rest)) ->
  (run th w).1 !! "version" = Some (VStr (strip line))
  /\ (run th w).1 !! "release" = Some (VStr (strip line)).
Proof.
  intros Hl Hr Hf. exec_step. exec_with Hf.
  rewrite strip_readline_first_line by done.
  abstract_text w. generalize (strip line). intros v.
  destruct (get_version_match th v); cbn [fst]; by vm_compute.
Qed.

(** C2. When the VERSION file is not there, the run stops with the
    [FileNotFoundError] of [open]: [version] and [release] stay unbound, and
    so does every name other than the three bound above the [with]
    statement. *)
Theorem missing_version_file_raises th w :
  files w !! VERSION_path = None ->
  (run th w).2 = Raise (FileNotFoundError VERSION_path)
  /\ (run th w).1 !! "version" = None
  /\ (run th w).1 !! "release" = None
  /\ (forall k, k <> "project" -> k <> "copyright" -> k <> "author" ->
        (run th w).1 !! k = None).
Proof.
  intros Hf. exec_step. exec_with Hf. cbn [fst snd].
  repeat split; try done.
  intros k H1 H2 H3. by rewrite !lookup_insert_ne, lookup_empty.
Qed.

Lemma version_release_from_first_line_witness :
  (run Sample.theme (Sample.world (Some Sample.release_text) None 2025)).1
    !! "version" = Some (VStr "1.4.2")
  /\ (run Sample.theme (Sample.world (Some Sample.release_text) None 2025)).1
    !! "release" = Some (VStr "1.4.2").
Proof.
  apply (version_release_from_first_line Sample.theme
           (Sample.world (Some Sample.release_text) None 2025)
           "  1.4.2 " (String LF "built from main"));
    reflexivity.
Defined.

Lemma missing_version_file_raises_witness :
  (run Sample.theme (Sample.world None None 2025)).2
    = Raise (FileNotFoundError "../../VERSION")
  /\ (run Sample.theme (Sample.world None None 2025)).1 !! "version" = None.
Proof.
  destruct (missing_version_file_raises Sample.theme
              (Sample.world None None 2025)) as (Hraise & Hversion & _).
  - reflexivity.
  - split; [exact Hraise | exact Hversion].
Defined.

(** ** The hostname *)

(** C4. With DOCUMENTATION_CNAME unset, a run that gets past the version
    file and the helper call completes with [cname] bound to the default
    literal. *)
Theorem cname_default_when_unset th w text token :
  environ w !! "DOCUMENTATION_CNAME" = None ->
  files w !! VERSION_path = Some (Text text) ->
  get_version_match th (strip (readline text)) = Ok token ->
  (run th w).2 = Ok tt
  /\ (run th w).1 !! "cname"
     = Some (VStr "laughing-guide-5m1lvq6.pages.github.io").
Proof.
  intros He Hf Ht. exec_conf Hf Ht. unfold os_getenv. rewrite He.
  generalize (str_int (now_year w)) (strip (readline text)). intros.
  by vm_compute.
Qed.

Lemma cname_default_when_unset_witness :
  (run Sample.theme (Sample.world (Some Sample.release_text) None 2025)).2
    = Ok tt
  /\ (run Sample.theme (Sample.world (Some Sample.release_text) None 2025)).1
       !! "cname" = Some (VStr "laughing-guide-5m1lvq6.pages.github.io").
Proof.
  apply (cname_default_when_unset Sample.theme
           (Sample.world (Some Sample.release_text) None 2025)
           Sample.release_text (VStr "1.4"));
    reflexivity.
Defined.

(** C5. With DOCUMENTATION_CNAME set to [v], such a run completes with
    [cname] bound to [v]. *)
Theorem cname_from_environment th w text token v :
  environ w !! "DOCUMENTATION_CNAME" = Some v ->
  files w !! VERSION_path = Some (Text text) ->
  get_version_match th (strip (readline text)) = Ok token ->
  (run th w).2 = Ok tt /\ (run th w).1 !! "cname" = Some (VStr v).
Proof.
  intros He Hf Ht. exec_conf Hf Ht. unfold os_getenv. rewrite He.
  generalize (str_int (now_year w)) (strip (readline text)). intros.
  by vm_compute.
Qed.

Lemma cname_from_environment_witness :
  (run Sample.theme
     (Sample.world (Some "0.3.dev0") (Some "flowkit.docs.example") 2026)).2
    = Ok tt
  /\ (run Sample.theme
        (Sample.world (Some "0.3.dev0") (Some "flowkit.docs.example") 2026)).1
       !! "cname" = Some (VStr "flowkit.docs.example").
Proof.
  apply (cname_from_environment Sample.theme
           (Sample.world (Some "0.3.dev0") (Some "flowkit.docs.example") 2026)
           "0.3.dev0" (VStr "dev"));
    reflexivity.
Defined.

(** ** The version switcher *)

(** C6. The helper is called on the stripped first line exactly.  When it
    returns a token the run completes, and the token is both
    [switcher_version] and the [version_match] entry of the theme's switcher
    options; when it raises, the run raises the same exception and
    [switcher_version] stays unbound. *)
Theorem switcher_token_from_helper th w text :
  files w !! VERSION_path = Some (Text text) ->
  match get_version_match th (strip (readline text)) with
  | Ok token =>
      (run th w).2 = Ok tt
      /\ (run th w).1 !! "switcher_version" = Some token
      /\ switcher_entry "version_match" (run th w).1 = Some token
  | Raise e =>
      (run th w).2 = Raise e
      /\ (run th w).1 !! "switcher_version" = None
      /\ (run th w).1 !! "html_theme_options" = None
  end.
Proof.
  intros Hf.
  destruct (get_version_match th (strip (readline text))) as [token|e] eqn:Ht;
    exec_conf Hf Ht; abstract_text w;
    generalize (strip (readline text)); intros; by vm_compute.
Qed.

Lemma switcher_token_from_helper_witness :
  (run Sample.theme (Sample.world (Some Sample.release_text) None 2025)).2
    = Ok tt
  /\ (run Sample.theme (Sample.world (Some Sample.release_text) None 2025)).1
       !! "switcher_version" = Some (VStr "1.4")
  /\ switcher_entry "version_match"
       (run Sample.theme (Sample.world (Some Sample.release_text) None 2025)).1
     = Some (VStr "1.4").
Proof.
  apply (switcher_token_from_helper Sample.theme
           (Sample.world (Some Sample.release_text) None 2025)
           Sample.release_text).
  reflexivity.
Defined.

(** C9. In a run that gets past the version file and the helper call,
    [cname] is the value of DOCUMENTATION_CNAME when it is set and the
    default literal otherwise, and the switcher's [json_url] is
    ["https://" + cname + "/versions.json"]. *)
Theorem switcher_json_url_from_cname th w text token :
  files w !! VERSION_path = Some (Text text) ->
  get_version_match th (strip (readline text)) = Ok token ->
  exists cname,
    (run th w).1 !! "cname" = Some (VStr cname)
    /\ switcher_entry "json_url" (run th w).1
       = Some (VStr ("https://" +:+ cname +:+ "/versions.json"))
    /\ (forall v, environ w !! "DOCUMENTATION_CNAME" = Some v -> cname = v)
    /\ (environ w !! "DOCUMENTATION_CNAME" = None ->
        cname = "laughing-guide-5m1lvq6.pages.github.io").
Proof.
  intros Hf Ht.
  exists (os_getenv w "DOCUMENTATION_CNAME"
            "laughing-guide-5m1lvq6.pages.github.io").
  split; [|split; [|split]].
  - exec_conf Hf Ht. abstract_text w. by vm_compute.
  - exec_conf Hf Ht. abstract_text w. by vm_compute.
  - intros v He. unfold os_getenv. by rewrite He.
  - intros He. unfold os_getenv. by rewrite He.
Qed.

Lemma switcher_json_url_from_cname_witness :
  exists cname,
    (run Sample.theme
       (Sample.world (Some "0.3.dev0") (Some "flowkit.docs.example") 2026)).1
      !! "cname" = Some (VStr cname)
    /\ switcher_entry "json_url"
         (run Sample.theme
            (Sample.world (Some "0.3.dev0") (Some "flowkit.docs.example")
               2026)).1
       = Some (VStr ("https://" +:+ cname +:+ "/versions.json"))
    /\ cname = "flowkit.docs.example".
Proof.
  destruct (switcher_json_url_from_cname Sample.theme
              (Sample.world (Some "0.3.dev0") (Some "flowkit.docs.example")
                 2026)
              "0.3.dev0" (VStr "dev") eq_refl eq_refl)
    as (cname & Hc & Hurl & Hset & _).
  exists cname. split; [exact Hc|]. split; [exact Hurl|].
  apply Hset. reflexivity.
Defined.

(** ** The source suffix *)

(** C8. A completed run binds [source_suffix] to the dict that maps
    [".rst"] to ["restructuredtext"] and [".md"] to ["markdown"]: the string
    [".rst"] assigned first is gone. *)
Theorem source_suffix_is_the_mapping th w text token :
  files w !! VERSION_path = Some (Text text) ->
  get_version_match th (strip (readline text)) = Ok token ->
  (run th w).2 = Ok tt
  /\ (run th w).1 !! "source_suffix"
     = Some (VDict [(".rst", VStr "restructuredtext");
                    (".md", VStr "markdown")])
  /\ ((run th w).1 !! "source_suffix") ≫= dict_get ".rst"
     = Some (VStr "restructuredtext")
  /\ ((run th w).1 !! "source_suffix") ≫= dict_get ".md"
     = Some (VStr "markdown")
  /\ (run th w).1 !! "source_suffix" <> Some (VStr ".rst").
Proof.
  intros Hf Ht. exec_conf Hf Ht. abstract_text w.
  generalize (strip (readline text)). intros.
  repeat split; by vm_compute.
Qed.

Lemma source_suffix_is_the_mapping_witness :
  (run Sample.theme (Sample.world (Some Sample.release_text) None 2025)).1
    !! "source_suffix"
  = Some (VDict [(".rst", VStr "restructuredtext"); (".md", VStr "markdown")]).
Proof.
  apply (source_suffix_is_the_mapping Sample.theme
           (Sample.world (Some Sample.release_text) None 2025)
           Sample.release_text (VStr "1.4"));
    reflexivity.
Defined.

(** ** Failure *)

(** C7, as the module has it.  The run completes whenever the VERSION file
    can be read and the helper returns on its stripped first line, whatever
    the process environment holds; and it completes only then: a run that
    completes has read the VERSION file and got a token from the helper. *)
Theorem only_version_file_and_helper_can_fail th w :
  (forall text token env,
     files w !! VERSION_path = Some (Text text) ->
     get_version_match th (strip (readline text)) = Ok token ->
     (run th (with_environ env w)).2 = Ok tt)
  /\ ((run th w).2 = Ok tt ->
      exists text token,
        files w !! VERSION_path = Some (Text text)
        /\ get_version_match th (strip (readline text)) = Ok token).
Proof.
  split.
  - intros text token env Hf Ht.
    change (files w) with (files (with_environ env w)) in Hf.
    by exec_conf Hf Ht.
  - destruct (files w !! VERSION_path) as [[text|e|e]|] eqn:Hf.
    + destruct (get_version_match th (strip (readline text))) as [token|e]
        eqn:Ht; [by exists text, token|].
      by exec_conf Hf Ht.
    + exec_step. by exec_with Hf.
    + exec_step. by exec_with Hf.
    + exec_step. by exec_with Hf.
Qed.

Lemma only_version_file_and_helper_can_fail_witness :
  (run Sample.theme
     (with_environ {[ "DOCUMENTATION_CNAME" := "flowkit.docs.example" ]}
        (Sample.world (Some Sample.release_text) None 2025))).2 = Ok tt.
Proof.
  apply (proj1 (only_version_file_and_helper_can_fail Sample.theme
                  (Sample.world (Some Sample.release_text) None 2025))
           Sample.release_text (VStr "1.4"));
    reflexivity.
Defined.

(** C7 as stated fails: a VERSION file that reads ["1"] is readable, and the
    run raises the [ValueError] of the helper. *)
Lemma readable_version_file_run_raises :
  files (Sample.world (Some ("1" +:+ String LF "")) None 2025)
    !! VERSION_path = Some (Text ("1" +:+ String LF ""))
  /\ (run Sample.theme
        (Sample.world (Some ("1" +:+ String LF "")) None 2025)).2
     = Raise (ValueError
                "not enough values to unpack (expected at least 2, got 1)").
Proof. split; reflexivity. Qed.

(** ** What depends on what *)

Lemma copyright_inj y1 y2 :
  "(c) " +:+ str_int y1 +:+ " ANSYS, Inc. All rights reserved"
  = "(c) " +:+ str_int y2 +:+ " ANSYS, Inc. All rights reserved" ->
  y1 = y2.
Proof.
  intros Heq. apply (inj (String.app "(c) ")) in Heq.
  apply append_inj_l in Heq. by apply (inj pretty) in Heq.
Qed.

(** The copyright line is bound before anything can raise. *)
Lemma copyright_bound th w :
  (run th w).1 !! "copyright"
  = Some (VStr ("(c) " +:+ str_int (now_year w)
                +:+ " ANSYS, Inc. All rights reserved")).
Proof.
  exec_cases th w; abstract_text w;
    try match goal with
        | |- context [strip (readline ?t)] => generalize (strip (readline t))
        end;
    intros; by vm_compute.
Qed.

(** C3, as the module has it.  Between two completed runs with the same
    theme package, every name outside [input_derived] has the same value,
    and so has every theme option other than [switcher].  The names of
    [input_derived] get their value from one input each: [version],
    [release] and [version_file] are the stripped first line of the VERSION
    file, [switcher_version] and the switcher's [version_match] are the
    token of the helper on it; [cname] is the value of DOCUMENTATION_CNAME,
    or the default literal, and the switcher's [json_url] is built from it;
    [copyright] is the literal text around the clock year.  The [switcher]
    option holds these two entries and nothing else. *)
Theorem only_listed_values_depend_on_inputs
    th w1 w2 text1 text2 token1 token2 :
  files w1 !! VERSION_path = Some (Text text1) ->
  get_version_match th (strip (readline text1)) = Ok token1 ->
  files w2 !! VERSION_path = Some (Text text2) ->
  get_version_match th (strip (readline text2)) = Ok token2 ->
  (forall k, k ∉ input_derived -> (run th w1).1 !! k = (run th w2).1 !! k)
  /\ (forall k, k <> "switcher" ->
       theme_option k (run th w1).1 = theme_option k (run th w2).1)
  /\ (run th w1).1 !! "version" = Some (VStr (strip (readline text1)))
  /\ (run th w1).1 !! "release" = Some (VStr (strip (readline text1)))
  /\ (run th w1).1 !! "version_file" = Some (VStr (strip (readline text1)))
  /\ (run th w1).1 !! "switcher_version" = Some token1
  /\ switcher_entry "version_match" (run th w1).1 = Some token1
  /\ (run th w1).1 !! "cname"
     = Some (VStr (default "laughing-guide-5m1lvq6.pages.github.io"
                     (environ w1 !! "DOCUMENTATION_CNAME")))
  /\ switcher_entry "json_url" (run th w1).1
     = Some (VStr ("https://"
                   +:+ default "laughing-guide-5m1lvq6.pages.github.io"
                         (environ w1 !! "DOCUMENTATION_CNAME")
                   +:+ "/versions.json"))
  /\ (run th w1).1 !! "copyright"
     = Some (VStr ("(c) " +:+ str_int (now_year w1)
                   +:+ " ANSYS, Inc. All rights reserved"))
  /\ theme_option "switcher" (run th w1).1
     = Some (VDict [
         ("json_url",
          VStr ("https://"
                +:+ default "laughing-guide-5m1lvq6.pages.github.io"
                      (environ w1 !! "DOCUMENTATION_CNAME")
                +:+ "/versions.json"));
         ("version_match", token1)]).
Proof.
  intros Hf1 Ht1 Hf2 Ht2. split; [|split].
  - intros k Hk. unfold input_derived in Hk.
    rewrite !not_elem_of_cons in Hk. destruct_and!.
    exec_conf Hf1 Ht1. exec_conf Hf2 Ht2.
    abstract_text w1. abstract_text w2.
    generalize (strip (readline text1)) (strip (readline text2)). intros.
    lookup_chain k.
  - intros k Hk. unfold theme_option.
    exec_conf Hf1 Ht1. exec_conf Hf2 Ht2.
    abstract_text w1. abstract_text w2.
    generalize (strip (readline text1)) (strip (readline text2)). intros.
    do 2 (rewrite !lookup_insert_ne by done; rewrite lookup_insert_eq).
    cbn [option_bind dict_get assoc].
    repeat match goal with
           | |- context [String.eqb k ?n] =>
               destruct (String.eqb_spec k n) as [->|_]; [done|]
           end.
    done.
  - exec_conf Hf1 Ht1. unfold os_getenv.
    generalize (str_int (now_year w1))
      (default "laughing-guide-5m1lvq6.pages.github.io"
         (environ w1 !! "DOCUMENTATION_CNAME"))
      (strip (readline text1)).
    intros. repeat split; by vm_compute.
Qed.

Lemma only_listed_values_depend_on_inputs_witness :
  (run Sample.theme (Sample.world (Some "1.4.2") None 2025)).1 !! "html_logo"
  = (run Sample.theme
       (Sample.world (Some Sample.release_text)
          (Some "flowkit.docs.example") 2026)).1 !! "html_logo".
Proof.
  apply (only_listed_values_depend_on_inputs Sample.theme
           (Sample.world (Some "1.4.2") None 2025)
           (Sample.world (Some Sample.release_text)
              (Some "flowkit.docs.example") 2026)
           "1.4.2" Sample.release_text (VStr "1.4") (VStr "1.4")
           eq_refl eq_refl eq_refl eq_refl).
  unfold input_derived. rewrite !not_elem_of_cons.
  repeat split; try discriminate. apply not_elem_of_nil.
Defined.

(** C3 as stated fails: with the same VERSION file, the copyright line follows
    the clock and [cname] follows the environment; with another VERSION file,
    [switcher_version] changes too. *)
Lemma values_outside_version_release_vary :
  (run Sample.theme (Sample.world (Some "1.4.2") None 2025)).1 !! "copyright"
    = Some (VStr "(c) 2025 ANSYS, Inc. All rights reserved")
  /\ (run Sample.theme (Sample.world (Some "1.4.2") None 2026)).1
       !! "copyright"
     = Some (VStr "(c) 2026 ANSYS, Inc. All rights reserved")
  /\ (run Sample.theme (Sample.world (Some "1.4.2") None 2025)).1 !! "cname"
     = Some (VStr "laughing-guide-5m1lvq6.pages.github.io")
  /\ (run Sample.theme
        (Sample.world (Some "1.4.2") (Some "flowkit.docs.example") 2025)).1
       !! "cname"
     = Some (VStr "flowkit.docs.example")
  /\ (run Sample.theme (Sample.world (Some "1.4.2") None 2025)).1
       !! "switcher_version"
     = Some (VStr "1.4")
  /\ (run Sample.theme (Sample.world (Some "2.0.1") None 2025)).1
       !! "switcher_version"
     = Some (VStr "2.0").
Proof. repeat split; by vm_compute. Qed.

(** ** Two runs *)

(** C10. Take two runs with the same theme package whose VERSION files have
    the same first line and whose DOCUMENTATION_CNAME is in the same state.
    With the same clock year the two runs are identical, namespace and
    outcome.  With any clock years they have the same outcome and agree on
    every name but [copyright], which is the literal text around the year:
    the two copyright lines are equal exactly when the years are. *)
Theorem runs_differ_only_by_copyright_year th w1 w2 line rest1 rest2 :
  no_eol line = true ->
  later_lines rest1 = true ->
  later_lines rest2 = true ->
  files w1 !! VERSION_path = Some (Text (line +:+ rest1)) ->
  files w2 !! VERSION_path = Some (Text (line +:+ rest2)) ->
  environ w1 !! "DOCUMENTATION_CNAME" = environ w2 !! "DOCUMENTATION_CNAME" ->
  (now_year w1 = now_year w2 -> run th w1 = run th w2)
  /\ (run th w1).2 = (run th w2).2
  /\ (forall k, k <> "copyright" ->
       (run th w1).1 !! k = (run th w2).1 !! k)
  /\ (run th w1).1 !! "copyright"
     = Some (VStr ("(c) " +:+ str_int (now_year w1)
                   +:+ " ANSYS, Inc. All rights reserved"))
  /\ (run th w2).1 !! "copyright"
     = Some (VStr ("(c) " +:+ str_int (now_year w2)
                   +:+ " ANSYS, Inc. All rights reserved"))
  /\ ((run th w1).1 !! "copyright" = (run th w2).1 !! "copyright"
      <-> now_year w1 = now_year w2).
Proof.
  intros Hl Hr1 Hr2 Hf1 Hf2 He.
  assert (Hrun : forall y1 y2,
    y1 = str_int (now_year w1) -> y2 = str_int (now_year w2) ->
    (y1 = y2 -> run th w1 = run th w2)
    /\ (run th w1).2 = (run th w2).2
    /\ (forall k, k <> "copyright" ->
         (run th w1).1 !! k = (run th w2).1 !! k)).
  { intros y1 y2 Hy1 Hy2. exec_step. exec_with Hf1. exec_with Hf2.
    rewrite !strip_readline_first_line by done.
    unfold os_getenv. rewrite He, <- Hy1, <- Hy2. clear Hy1 Hy2.
    generalize (default "laughing-guide-5m1lvq6.pages.github.io"
                  (environ w2 !! "DOCUMENTATION_CNAME")).
    generalize (strip line). intros v cname.
    destruct (get_version_match th v) as [token|e]; cbn [fst snd].
    - split; [by intros ->|]. split; [done|].
      intros k Hk. lookup_chain k.
    - split; [by intros ->|]. split; [done|].
      intros k Hk. lookup_chain k. }
  destruct (Hrun _ _ eq_refl eq_refl) as (Hsame & Hout & Hrest).
  split; [intros Hy; apply Hsame; by rewrite Hy|].
  split; [done|]. split; [done|].
  rewrite !copyright_bound. split; [done|]. split; [done|].
  split.
  - intros Heq. apply copyright_inj. congruence.
  - by intros ->.
Qed.

Lemma runs_differ_only_by_copyright_year_witness :
  run Sample.theme (Sample.world (Some Sample.release_text) None 2025)
  = run Sample.theme
      (Sample.world
         (Some ("  1.4.2 " +:+ String CR (String LF "another second line")))
         None 2025).
Proof.
  refine (proj1 (runs_differ_only_by_copyright_year Sample.theme
                   (Sample.world (Some Sample.release_text) None 2025)
                   (Sample.world
                      (Some ("  1.4.2 "
                             +:+ String CR (String LF "another second line")))
                      None 2025)
                   "  1.4.2 " (String LF "built from main")
                   (String CR (String LF "another second line"))
                   _ _ _ _ _ _) _);
    reflexivity.
Defined.

(** * Further properties of the module *)

(** ** What [strip] does to a line *)

Section Strip.
#[local] Arguments String.append !_ _ / : simpl nomatch.
#[local] Arguments isspace : simpl never.
#[local] Arguments is_eol : simpl never.
Implicit Types (s core pre post : string) (c : ascii).

Lemma lstrip_all_space pre s : all_space pre = true ->
  lstrip (pre +:+ s) = lstrip s.
Proof.
  induction pre as [|c pre IH]; cbn; [done|].
  intros [Hc Hpre]%andb_prop. rewrite Hc. by apply IH.
Qed.

Lemma lstrip_blank s : all_space s = true -> lstrip s = "".
Proof.
  induction s as [|c s IH]; cbn; [done|].
  intros [Hc Hs]%andb_prop. rewrite Hc. by apply IH.
Qed.

Lemma rstrip_all_space post : all_space post = true -> rstrip post = "".
Proof.
  induction post as [|c post IH]; cbn; [done|].
  intros [Hc Hpost]%andb_prop. by rewrite IH, Hc.
Qed.

Lemma rstrip_app_all_space s post : all_space post = true ->
  rstrip (s +:+ post) = rstrip s.
Proof.
  intros Hpost. induction s as [|c s IH]; cbn.
  - by apply rstrip_all_space.
  - by rewrite IH.
Qed.

Lemma lstrip_fixed s : starts_with_space s = false -> lstrip s = s.
Proof. destruct s as [|c s]; cbn; [done|]. by intros ->. Qed.

Lemma rstrip_fixed s : ends_with_space s = false -> rstrip s = s.
Proof.
  induction s as [|c s IH]; [done|].
  destruct s as [|a s].
  - cbn. by intros ->.
  - intros Hs. change (ends_with_space (String a s) = false) in Hs.
    change (rstrip (String c (String a s)))
      with (match rstrip (String a s) with
            | "" => if isspace c then "" else String c ""
            | r => String c r
            end).
    by rewrite IH.
Qed.

Lemma lstrip_starts s : starts_with_space (lstrip s) = false.
Proof.
  induction s as [|c s IH]; cbn; [done|].
  destruct (isspace c) eqn:Hc; [done|]. cbn. by rewrite Hc.
Qed.

Lemma rstrip_ends s : ends_with_space (rstrip s) = false.
Proof.
  induction s as [|c s IH]; cbn; [done|].
  destruct (rstrip s) as [|a r] eqn:Hr.
  - destruct (isspace c) eqn:Hc; cbn; [done|]. by rewrite Hc.
  - exact IH.
Qed.

Lemma rstrip_starts s :
  starts_with_space s = false -> starts_with_space (rstrip s) = false.
Proof.
  destruct s as [|c s]; cbn; [done|]. intros Hc.
  destruct (rstrip s); cbn; by rewrite Hc.
Qed.

(** [lstrip] and [rstrip] only take whitespace away, from one end. *)
Lemma lstrip_split s :
  exists pre, all_space pre = true /\ s = pre +:+ lstrip s.
Proof.
  induction s as [|c s (pre & Hpre & Hs)]; [by exists ""|].
  cbn. destruct (isspace c) eqn:Hc.
  - exists (String c pre). cbn. rewrite Hc, Hpre. by rewrite <- Hs.
  - by exists "".
Qed.

Lemma rstrip_split s :
  exists post, all_space post = true /\ s = rstrip s +:+ post.
Proof.
  induction s as [|c s (post & Hpost & Hs)]; [by exists ""|].
  cbn. destruct (rstrip s) as [|a r] eqn:Hr.
  - cbn in Hs. destruct (isspace c) eqn:Hc.
    + exists (String c post). cbn. rewrite Hc, Hpost. split; [done|congruence].
    + exists post. cbn. split; [done|congruence].
  - exists post. split; [done|]. cbn. cbn in Hs. congruence.
Qed.

Lemma no_eol_app s1 s2 :
  no_eol (s1 +:+ s2) = no_eol s1 && no_eol s2.
Proof.
  induction s1 as [|c s1 IH]; cbn; [done|].
  rewrite IH. by rewrite andb_assoc.
Qed.

Lemma strip_split s :
  exists pre post,
    all_space pre = true /\ all_space post = true
    /\ s = pre +:+ strip s +:+ post.
Proof.
  destruct (lstrip_split s) as (pre & Hpre & Hs).
  destruct (rstrip_split (lstrip s)) as (post & Hpost & Hl).
  exists pre, post. unfold strip. by rewrite <- Hl.
Qed.

Lemma strip_padding pre core post :
  all_space pre = true -> all_space post = true ->
  starts_with_space core = false -> ends_with_space core = false ->
  strip (pre +:+ core +:+ post) = core.
Proof.
  intros Hpre Hpost Hstart Hend. unfold strip.
  rewrite lstrip_all_space by done.
  destruct core as [|c core].
  - cbn. by rewrite lstrip_blank.
  - cbn in Hstart. cbn. rewrite Hstart.
    change (String c (core +:+ post)) with (String c core +:+ post).
    rewrite rstrip_app_all_space by done. by apply rstrip_fixed.
Qed.

End Strip.

(** ** The version string *)

(** The three names bound from the VERSION file. *)
Lemma version_names_bound th w text :
  files w !! VERSION_path = Some (Text text) ->
  (run th w).1 !! "version_file" = Some (VStr (strip (readline text)))
  /\ (run th w).1 !! "release" = Some (VStr (strip (readline text)))
  /\ (run th w).1 !! "version" = Some (VStr (strip (readline text))).
Proof.
  intros Hf. exec_step. exec_with Hf. abstract_text w.
  generalize (strip (readline text)). intros v.
  destruct (get_version_match th v); cbn [fst]; by vm_compute.
Qed.

(** X1. The version is the first line of the VERSION file less its padding:
    the line reads [pre ++ v ++ post] with [pre] and [post] all whitespace,
    where [v], bound to [version] and [release], neither begins nor ends with
    a whitespace character and holds no line terminator. *)
Theorem version_is_first_line_trimmed th w line rest :
  no_eol line = true ->
  later_lines rest = true ->
  files w !! VERSION_path = Some (Text (line +:+ rest)) ->
  exists pre v post,
    line = pre +:+ v +:+ post
    /\ all_space pre = true /\ all_space post = true
    /\ starts_with_space v = false /\ ends_with_space v = false
    /\ no_eol v = true
    /\ (run th w).1 !! "version" = Some (VStr v)
    /\ (run th w).1 !! "release" = Some (VStr v).
Proof.
  intros Hl Hr Hf.
  destruct (version_names_bound th w _ Hf) as (_ & Hrel & Hver).
  rewrite strip_readline_first_line in Hrel, Hver by done.
  destruct (strip_split line) as (pre & post & Hpre & Hpost & Hline).
  exists pre, (strip line), post. repeat split; try done.
  - unfold strip. apply rstrip_starts, lstrip_starts.
  - apply rstrip_ends.
  - rewrite Hline, !no_eol_app in Hl.
    by apply andb_prop in Hl as [_ [? _]%andb_prop].
Qed.

Lemma version_is_first_line_trimmed_witness :
  exists pre v post,
    "  1.4.2 " = pre +:+ v +:+ post
    /\ all_space pre = true /\ all_space post = true
    /\ starts_with_space v = false /\ ends_with_space v = false
    /\ no_eol v = true
    /\ (run Sample.theme
          (Sample.world (Some Sample.release_text) None 2025)).1
         !! "version" = Some (VStr v)
    /\ (run Sample.theme
          (Sample.world (Some Sample.release_text) None 2025)).1
         !! "release" = Some (VStr v).
Proof.
  apply (version_is_first_line_trimmed Sample.theme
           (Sample.world (Some Sample.release_text) None 2025)
           "  1.4.2 " (String LF "built from main"));
    reflexivity.
Defined.

(** X2. Conversely, when the first line reads [pre ++ core ++ post] with
    whitespace-only [pre] and [post] around a [core] that neither begins nor
    ends with a whitespace character, [version] and [release] are [core]
    itself: whitespace inside [core] is kept. *)
Theorem version_is_the_padded_core th w pre core post rest :
  all_space pre = true ->
  all_space post = true ->
  starts_with_space core = false ->
  ends_with_space core = false ->
  no_eol (pre +:+ core +:+ post) = true ->
  later_lines rest = true ->
  files w !! VERSION_path
    = Some (Text ((pre +:+ core +:+ post) +:+ rest)) ->
  (run th w).1 !! "version" = Some (VStr core)
  /\ (run th w).1 !! "release" = Some (VStr core).
Proof.
  intros Hpre Hpost Hstart Hend Hl Hr Hf.
  destruct (version_names_bound th w _ Hf) as (_ & Hrel & Hver).
  rewrite strip_readline_first_line in Hrel, Hver by done.
  by rewrite strip_padding in Hrel, Hver.
Qed.

Lemma version_is_the_padded_core_witness :
  (run Sample.theme
     (Sample.world (Some (" 2.0 rc 1  " +:+ String CR "notes")) None 2025)).1
    !! "version" = Some (VStr "2.0 rc 1")
  /\ (run Sample.theme
        (Sample.world (Some (" 2.0 rc 1  " +:+ String CR "notes")) None
           2025)).1
       !! "release" = Some (VStr "2.0 rc 1").
Proof.
  apply (version_is_the_padded_core Sample.theme
           (Sample.world (Some (" 2.0 rc 1  " +:+ String CR "notes")) None
              2025)
           " " "2.0 rc 1" "  " (String CR "notes"));
    reflexivity.
Defined.

(** X3. A VERSION file whose first line is empty or blank is not an error of
    the read: [version] and [release] are the empty string, whatever the
    later lines hold, and the run ends as the helper does on the empty
    string. *)
Theorem blank_first_line_gives_empty_version th w line rest :
  all_space line = true ->
  no_eol line = true ->
  later_lines rest = true ->
  files w !! VERSION_path = Some (Text (line +:+ rest)) ->
  (run th w).1 !! "version" = Some (VStr "")
  /\ (run th w).1 !! "release" = Some (VStr "")
  /\ (run th w).2 = match get_version_match th "" with
                    | Ok _ => Ok tt
                    | Raise e => Raise e
                    end.
Proof.
  intros Hblank Hl Hr Hf.
  assert (strip (readline (line +:+ rest)) = "") as Hv.
  { rewrite strip_readline_first_line by done.
    unfold strip. by rewrite lstrip_blank. }
  destruct (version_names_bound th w _ Hf) as (_ & Hrel & Hver).
  rewrite Hv in Hrel, Hver. split; [done|]. split; [done|].
  exec_step. exec_with Hf. rewrite Hv.
  by destruct (get_version_match th "").
Qed.

Lemma blank_first_line_gives_empty_version_witness :
  (run Sample.theme
     (Sample.world (Some (String LF "1.4.2")) None 2025)).1 !! "version"
    = Some (VStr "")
  /\ (run Sample.theme
        (Sample.world (Some (String LF "1.4.2")) None 2025)).1 !! "release"
     = Some (VStr "")
  /\ (run Sample.theme
        (Sample.world (Some (String LF "1.4.2")) None 2025)).2
     = Raise (ValueError
                "not enough values to unpack (expected at least 2, got 1)").
Proof.
  apply (blank_first_line_gives_empty_version Sample.theme
           (Sample.world (Some (String LF "1.4.2")) None 2025)
           "" (String LF "1.4.2"));
    reflexivity.
Defined.

(** X4. In every run, completed or not, [release], [version] and
    [version_file] are bound alike: to the same value, or none of them. *)
Theorem release_version_always_agree th w :
  (run th w).1 !! "release" = (run th w).1 !! "version"
  /\ (run th w).1 !! "version_file" = (run th w).1 !! "version".
Proof.
  destruct (files w !! VERSION_path) as [[text|e|e]|] eqn:Hf.
  - destruct (version_names_bound th w _ Hf) as (-> & -> & ->). done.
  - exec_step. exec_with Hf. cbn [fst].
    generalize (str_int (now_year w)). intros. by vm_compute.
  - exec_step. exec_with Hf. cbn [fst].
    generalize (str_int (now_year w)). intros. by vm_compute.
  - exec_step. exec_with Hf. cbn [fst].
    generalize (str_int (now_year w)). intros. by vm_compute.
Qed.

(** ** What a run binds *)

(** X6. A completed run binds every name that the module assigns: none of
    the 23 names of [bound_names] is missing from the configuration. *)
Theorem completed_run_binds_bound_names th w text token k :
  files w !! VERSION_path = Some (Text text) ->
  get_version_match th (strip (readline text)) = Ok token ->
  k ∈ bound_names ->
  is_Some ((run th w).1 !! k).
Proof.
  intros Hf Ht. unfold bound_names. rewrite !elem_of_cons, elem_of_nil.
  intros Hk. exec_conf Hf Ht. abstract_text w.
  generalize (strip (readline text)). intros.
  destruct_or!; try done; subst k; vm_compute; by eexists.
Qed.

Lemma completed_run_binds_bound_names_witness :
  is_Some ((run Sample.theme
              (Sample.world (Some Sample.release_text) None 2025)).1
             !! "myst_heading_anchors").
Proof.
  apply (completed_run_binds_bound_names Sample.theme
           (Sample.world (Some Sample.release_text) None 2025)
           Sample.release_text (VStr "1.4"));
    [reflexivity | reflexivity |].
  unfold bound_names. rewrite !elem_of_cons. tauto.
Defined.

(** X7. When the helper raises, the run stops with that exception, and of
    the names that the module assigns exactly those above the call are
    bound: no hostname, no theme, no extension list. *)
Theorem helper_failure_binds_prefix th w text e k :
  files w !! VERSION_path = Some (Text text) ->
  get_version_match th (strip (readline text)) = Raise e ->
  k ∈ bound_names ->
  (run th w).2 = Raise e
  /\ (is_Some ((run th w).1 !! k) <-> k ∈ bound_before_helper).
Proof.
  intros Hf Ht Hk. split; [by exec_conf Hf Ht|]. split.
  - intros Hsome.
    destruct (decide (k ∈ bound_before_helper)) as [|Hno]; [done|].
    exfalso. revert Hsome. unfold bound_before_helper in Hno.
    rewrite !not_elem_of_cons in Hno. destruct_and!.
    exec_conf Hf Ht. rewrite !lookup_insert_ne by fast_done.
    rewrite lookup_empty. by intros [? ?].
  - clear Hk. unfold bound_before_helper. rewrite !elem_of_cons, elem_of_nil.
    intros Hk. exec_conf Hf Ht.
    generalize (str_int (now_year w)) (strip (readline text)). intros.
    destruct_or!; try done; subst k; vm_compute; by eexists.
Qed.

Lemma helper_failure_binds_prefix_witness :
  (run Sample.theme (Sample.world (Some "1") None 2025)).2
    = Raise (ValueError
               "not enough values to unpack (expected at least 2, got 1)")
  /\ (is_Some ((run Sample.theme (Sample.world (Some "1") None 2025)).1
                !! "cname")
      <-> "cname" ∈ bound_before_helper).
Proof.
  apply (helper_failure_binds_prefix Sample.theme
           (Sample.world (Some "1") None 2025) "1");
    [reflexivity | reflexivity |].
  unfold bound_names. rewrite !elem_of_cons. tauto.
Defined.

(** X9. When [open] refuses the VERSION path, or when reading the opened
    file raises, the run stops with that exception: the helper is not
    called and [version_file], [version] and [release] stay unbound.  [f] is
    bound exactly when the file could be opened. *)
Theorem read_failure_stops_before_version th w e :
  (files w !! VERSION_path = Some (OpenRaises e) ->
   (run th w).2 = Raise e
   /\ (run th w).1 !! "f" = None
   /\ (run th w).1 !! "version_file" = None
   /\ (run th w).1 !! "version" = None
   /\ (run th w).1 !! "release" = None
   /\ (run th w).1 !! "switcher_version" = None)
  /\ (files w !! VERSION_path = Some (ReadRaises e) ->
      (run th w).2 = Raise e
      /\ (run th w).1 !! "f" = Some (VFile VERSION_path)
      /\ (run th w).1 !! "version_file" = None
      /\ (run th w).1 !! "version" = None
      /\ (run th w).1 !! "release" = None
      /\ (run th w).1 !! "switcher_version" = None).
Proof.
  split; intros Hf; exec_step; exec_with Hf; cbn [fst snd];
    generalize (str_int (now_year w)); intros; repeat split; by vm_compute.
Qed.

Lemma read_failure_stops_before_version_witness :
  (run Sample.theme
     (Sample.world_at
        (ReadRaises (UnicodeDecodeError "invalid start byte")) 2025)).2
    = Raise (UnicodeDecodeError "invalid start byte")
  /\ (run Sample.theme
        (Sample.world_at
           (ReadRaises (UnicodeDecodeError "invalid start byte")) 2025)).1
       !! "f" = Some (VFile VERSION_path)
  /\ (run Sample.theme
        (Sample.world_at
           (ReadRaises (UnicodeDecodeError "invalid start byte")) 2025)).1
       !! "version" = None.
Proof.
  destruct (proj2 (read_failure_stops_before_version Sample.theme
                     (Sample.world_at
                        (ReadRaises (UnicodeDecodeError "invalid start byte"))
                        2025)
                     (UnicodeDecodeError "invalid start byte")) eq_refl)
    as (Hraise & Hf & _ & Hversion & _).
  split; [exact Hraise|]. split; [exact Hf | exact Hversion].
Defined.

(** X10. The module raises nothing of its own: the exception of a run that
    fails is the one of [open] (a missing file included), of the read, or of
    the helper on the stripped first line. *)
Theorem failure_is_of_read_or_helper th w e :
  (run th w).2 = Raise e ->
  (files w !! VERSION_path = None /\ e = FileNotFoundError VERSION_path)
  \/ files w !! VERSION_path = Some (OpenRaises e)
  \/ files w !! VERSION_path = Some (ReadRaises e)
  \/ (exists text,
       files w !! VERSION_path = Some (Text text)
       /\ get_version_match th (strip (readline text)) = Raise e).
Proof.
  destruct (files w !! VERSION_path) as [[text|e'|e']|] eqn:Hf.
  - destruct (get_version_match th (strip (readline text))) as [token|e']
      eqn:Ht; exec_conf Hf Ht; [done|].
    intros [= ->]. do 3 right. by exists text.
  - exec_step. exec_with Hf. cbn [snd]. intros [= ->]. right. by left.
  - exec_step. exec_with Hf. cbn [snd]. intros [= ->]. do 2 right. by left.
  - exec_step. exec_with Hf. cbn [snd]. intros [= <-]. by left.
Qed.

Lemma failure_is_of_read_or_helper_witness :
  (files (Sample.world_at (OpenRaises (IsADirectoryError VERSION_path)) 2025)
     !! VERSION_path = None
   /\ IsADirectoryError VERSION_path = FileNotFoundError VERSION_path)
  \/ files (Sample.world_at (OpenRaises (IsADirectoryError VERSION_path))
              2025) !! VERSION_path
     = Some (OpenRaises (IsADirectoryError VERSION_path))
  \/ files (Sample.world_at (OpenRaises (IsADirectoryError VERSION_path))
              2025) !! VERSION_path
     = Some (ReadRaises (IsADirectoryError VERSION_path))
  \/ (exists text,
       files (Sample.world_at (OpenRaises (IsADirectoryError VERSION_path))
                2025) !! VERSION_path = Some (Text text)
       /\ get_version_match Sample.theme (strip (readline text))
          = Raise (IsADirectoryError VERSION_path)).
Proof.
  apply (failure_is_of_read_or_helper Sample.theme
           (Sample.world_at (OpenRaises (IsADirectoryError VERSION_path))
              2025)).
  reflexivity.
Defined.

(** ** The switcher address *)

Lemma cname_and_json_url th w text token :
  files w !! VERSION_path = Some (Text text) ->
  get_version_match th (strip (readline text)) = Ok token ->
  (run th w).1 !! "cname"
    = Some (VStr (os_getenv w "DOCUMENTATION_CNAME"
                    "laughing-guide-5m1lvq6.pages.github.io"))
  /\ switcher_entry "json_url" (run th w).1
     = Some (VStr ("https://"
                   +:+ os_getenv w "DOCUMENTATION_CNAME"
                         "laughing-guide-5m1lvq6.pages.github.io"
                   +:+ "/versions.json")).
Proof.
  intros Hf Ht. exec_conf Hf Ht. abstract_text w.
  generalize (strip (readline text)). intros. by vm_compute.
Qed.

(** X8. Two completed runs have the same switcher [json_url] exactly when
    they have the same [cname]: no two hostnames share an address. *)
Theorem json_url_tells_cname th w1 w2 text1 text2 token1 token2 :
  files w1 !! VERSION_path = Some (Text text1) ->
  get_version_match th (strip (readline text1)) = Ok token1 ->
  files w2 !! VERSION_path = Some (Text text2) ->
  get_version_match th (strip (readline text2)) = Ok token2 ->
  switcher_entry "json_url" (run th w1).1
    = switcher_entry "json_url" (run th w2).1
  <-> (run th w1).1 !! "cname" = (run th w2).1 !! "cname".
Proof.
  intros Hf1 Ht1 Hf2 Ht2.
  destruct (cname_and_json_url th w1 _ _ Hf1 Ht1) as [-> ->].
  destruct (cname_and_json_url th w2 _ _ Hf2 Ht2) as [-> ->].
  split.
  - intros Heq. do 2 f_equal.
    assert ("https://" +:+ os_getenv w1 "DOCUMENTATION_CNAME"
              "laughing-guide-5m1lvq6.pages.github.io" +:+ "/versions.json"
            = "https://" +:+ os_getenv w2 "DOCUMENTATION_CNAME"
                "laughing-guide-5m1lvq6.pages.github.io" +:+ "/versions.json")
      as Happ by congruence.
    apply (inj (String.app "https://")) in Happ.
    by apply append_inj_l in Happ.
  - intros Heq. do 2 f_equal. f_equal. congruence.
Qed.

Lemma json_url_tells_cname_witness :
  switcher_entry "json_url"
    (run Sample.theme (Sample.world (Some "1.4.2") None 2025)).1
    = switcher_entry "json_url"
        (run Sample.theme
           (Sample.world (Some "0.3.dev0")
              (Some "laughing-guide-5m1lvq6.pages.github.io") 2026)).1
  <-> (run Sample.theme (Sample.world (Some "1.4.2") None 2025)).1
        !! "cname"
      = (run Sample.theme
           (Sample.world (Some "0.3.dev0")
              (Some "laughing-guide-5m1lvq6.pages.github.io") 2026)).1
          !! "cname".
Proof.
  apply (json_url_tells_cname Sample.theme
           (Sample.world (Some "1.4.2") None 2025)
           (Sample.world (Some "0.3.dev0")
              (Some "laughing-guide-5m1lvq6.pages.github.io") 2026)
           "1.4.2" "0.3.dev0" (VStr "1.4") (VStr "dev"));
    reflexivity.
Defined.
